(** * popsift: dispatch of the interpolated-grid descriptor kernel

    A shallow embedding of [src/popsift/s_desc_igrid.h].  The header declares
    the device kernel [ext_desc_igrid] and defines the host function
    [popsift::start_ext_desc_igrid], which reads the pending orientation count
    of an octave from the global counter table [hct], builds the launch
    geometry, enqueues the kernel on the octave's stream and runs the
    [POP_SYNC_CHK] checkpoint.

    Host code is modelled in a state, trace and exit monad over a [World]:
    the global table, the store of octave objects (the function receives a
    C++ reference), the work enqueued on the device and the runtime's error
    state.  Reads outside an array and through a dangling reference are
    undefined behaviour and are kept apart as [Undefined]. *)

From Stdlib Require Import ZArith List Lia.
From stdpp Require Import base numbers option list gmap.

Local Open Scope Z_scope.

(** ** Machine integers *)

(** [uint32_t]: conversion of an integer value to the 32-bit unsigned type
    reduces it modulo 2^32. *)
Definition to_uint32 (v : Z) : Z := v mod 2 ^ 32.

(** ** HIP runtime vocabulary *)

Module dim3.

(** [struct dim3 { uint32_t x, y, z; }]. *)
Record t : Type := mk { x : Z; y : Z; z : Z }.

(** The default constructor [dim3()] gives (1,1,1). *)
Definition ctor : t := mk 1 1 1.

(** Assignments to the members; the stored value is a [uint32_t]. *)
Definition set_x (d : t) (v : Z) : t := mk (to_uint32 v) (y d) (z d).
Definition set_y (d : t) (v : Z) : t := mk (x d) (to_uint32 v) (z d).
Definition set_z (d : t) (v : Z) : t := mk (x d) (y d) (to_uint32 v).

(** Number of elements of the index space spanned by the three extents. *)
Definition volume (d : t) : Z := x d * y d * z d.

(** A three-dimensional index [(i, j, k)] lies in the index space of [d]. *)
Definition contains (d : t) (i j k : Z) : Prop :=
  0 <= i < x d /\ 0 <= j < y d /\ 0 <= k < z d.

End dim3.

Definition hipStream_t : Type := Z.
Definition hipTextureObject_t : Type := Z.

Definition hipError_t : Type := Z.
Definition hipSuccess : hipError_t := 0.

(** The kernels this header launches, each with the arguments of its
    declaration:
    [__global__ void ext_desc_igrid(const int octave, hipTextureObject_t texLinear)]. *)
Inductive kernel_call : Type :=
| ext_desc_igrid (octave : Z) (texLinear : hipTextureObject_t).

(** One launch request, as [hipLaunchKernelGGL] receives it. *)
Record Launch : Type := mkLaunch {
  l_kernel : kernel_call;
  l_numBlocks : dim3.t;
  l_dimBlocks : dim3.t;
  l_sharedMemBytes : Z;
  l_stream : hipStream_t
}.

(** What a run does to the runtime, in program order. *)
Inductive event : Type :=
| EvLaunch (l : Launch)
| EvSyncChk.

(** ** Collaborators declared in headers outside this file *)

(** [#define IGRID_NUMLINES 1] *)
Definition IGRID_NUMLINES : Z := 1.

(** Modelled from the spec: the global counter table [hct] of
    [sift_extremum.h].  [ori_ct] is the per-octave table of pending
    (keypoint, orientation) pair counts; its extent is the length of the
    list and its entries are integer values of the table's element type. *)
Record ExtremaCounters : Type := mkExtremaCounters { ori_ct : list Z }.

(** [oct_obj.getDataTexLinear()] yields an object with a member [tex]. *)
Record LinearTexture : Type := mkLinearTexture { tex : hipTextureObject_t }.

(** Modelled from the spec: class [Octave] of [sift_octave.h].  The spec
    gives the accessors as thin read contracts: the execution stream of the
    octave and its linearly interpolated image.  The class is kept abstract;
    only the two accessors the function calls are required. *)
Class OctaveAPI (Octave : Type) : Type := {
  getStream : Octave -> hipStream_t;
  getDataTexLinear : Octave -> LinearTexture
}.

(** A host octave object with a few fields besides the two handles, used to
    run the model on concrete inputs. *)
Record HostOctave : Type := mkHostOctave {
  _w : Z;
  _h : Z;
  _stream : hipStream_t;
  _data_tex_linear : LinearTexture
}.

#[export] Instance HostOctave_API : OctaveAPI HostOctave :=
  {| getStream := _stream; getDataTexLinear := _data_tex_linear |}.

(** Addresses of octave objects: the referent of an [Octave&]. *)
Definition ref : Type := positive.

Section Host.

Context {Octave : Type} `{OctaveAPI Octave}.

(** The state a call runs in. *)
Record World : Type := mkWorld {
  hct : ExtremaCounters;
  (** the octave objects alive on the host *)
  heap : gmap ref Octave;
  (** launches enqueued on their streams and not yet synchronized *)
  pending : list Launch;
  (** the error the runtime holds from earlier operations *)
  last_error : hipError_t;
  (** the error the device reports once the given enqueued work has run *)
  backend : list Launch -> hipError_t
}.

(** A call returns a value, terminates the process with an error, or has
    undefined behaviour. *)
Inductive outcome (A : Type) : Type :=
| Done (a : A) (w : World) (t : list event)
| Exited (e : hipError_t) (w : World) (t : list event)
| Undefined.

#[global] Arguments Done {A} a w t.
#[global] Arguments Exited {A} e w t.
#[global] Arguments Undefined {A}.

Definition M (A : Type) : Type := World -> outcome A.

#[local] Instance M_ret : MRet M := fun A a w => Done a w [].

#[local] Instance M_bind : MBind M := fun A B f m w =>
  match m w with
  | Done a w1 t1 =>
      match f a w1 with
      | Done b w2 t2 => Done b w2 (t1 ++ t2)
      | Exited e w2 t2 => Exited e w2 (t1 ++ t2)
      | Undefined => Undefined
      end
  | Exited e w1 t1 => Exited e w1 t1
  | Undefined => Undefined
  end.

(** [hct.ori_ct[octave]]: an index outside the array is undefined. *)
Definition read_ori_ct (octave : Z) : M Z := fun w =>
  if octave <? 0 then Undefined
  else match ori_ct (hct w) !! Z.to_nat octave with
       | Some c => Done c w []
       | None => Undefined
       end.

(** [oct_obj.getStream()] through the reference [oct_obj]. *)
Definition Octave_getStream (oct_obj : ref) : M hipStream_t := fun w =>
  match heap w !! oct_obj with
  | Some o => Done (getStream o) w []
  | None => Undefined
  end.

(** [oct_obj.getDataTexLinear()] through the reference [oct_obj]. *)
Definition Octave_getDataTexLinear (oct_obj : ref) : M LinearTexture := fun w =>
  match heap w !! oct_obj with
  | Some o => Done (getDataTexLinear o) w []
  | None => Undefined
  end.

(** The world once a launch has been appended to the enqueued work. *)
Definition enqueued (w : World) (l : Launch) : World :=
  mkWorld (hct w) (heap w) (pending w ++ [l]) (last_error w) (backend w).

(** The world a checkpoint leaves: nothing enqueued, error state cleared. *)
Definition synchronized (w : World) : World :=
  mkWorld (hct w) (heap w) [] hipSuccess (backend w).

(** [hipLaunchKernelGGL(kernel, numBlocks, dimBlocks, sharedMemBytes, stream, args...)]:
    the launch is asynchronous, it is appended to the work enqueued on the
    device and the call returns. *)
Definition hipLaunchKernelGGL (k : kernel_call) (numBlocks dimBlocks : dim3.t)
    (sharedMemBytes : Z) (stream : hipStream_t) : M unit := fun w =>
  let l := mkLaunch k numBlocks dimBlocks sharedMemBytes stream in
  Done tt (enqueued w l) [EvLaunch l].

(** The error a checkpoint finds: an error already held by the runtime,
    otherwise what the device reports for the enqueued work. *)
Definition checkpoint_error (w : World) : hipError_t :=
  if last_error w =? hipSuccess then backend w (pending w) else last_error w.

(** Modelled from the spec: the macro [POP_SYNC_CHK] of
    [common/debug_macros.h], an explicit synchronization and error check.
    It waits for the enqueued work, reads and clears the error state, and
    on a failure reports it and terminates the run. *)
Definition POP_SYNC_CHK : M unit := fun w =>
  let e := checkpoint_error w in
  if e =? hipSuccess then Done tt (synchronized w) [EvSyncChk]
  else Exited e (synchronized w) [EvSyncChk].

(** [inline static bool start_ext_desc_igrid(const int octave, Octave& oct_obj)] *)
Definition start_ext_desc_igrid (octave : Z) (oct_obj : ref) : M bool :=
  let block := dim3.ctor in
  let grid := dim3.ctor in
  c ← read_ori_ct octave;
  let grid := dim3.set_x grid c in
  let grid := dim3.set_y grid 1 in
  let grid := dim3.set_z grid 1 in
  if dim3.x grid =? 0 then mret false
  else
    let block := dim3.set_x block 16 in
    let block := dim3.set_y block 16 in
    let block := dim3.set_z block IGRID_NUMLINES in
    stream ← Octave_getStream oct_obj;
    data ← Octave_getDataTexLinear oct_obj;
    hipLaunchKernelGGL (ext_desc_igrid octave (tex data)) grid block 0 stream;;
    POP_SYNC_CHK;;
    mret true.

(** ** Observations on a run *)

Definition trace_of {A : Type} (o : outcome A) : list event :=
  match o with
  | Done _ _ t | Exited _ _ t => t
  | Undefined => []
  end.

Definition retval {A : Type} (o : outcome A) : option A :=
  match o with
  | Done a _ _ => Some a
  | _ => None
  end.

Definition exit_status {A : Type} (o : outcome A) : option hipError_t :=
  match o with
  | Exited e _ _ => Some e
  | _ => None
  end.

Definition final_world {A : Type} (o : outcome A) : option World :=
  match o with
  | Done _ w _ | Exited _ w _ => Some w
  | Undefined => None
  end.

(** The launches among the events of a trace, in order. *)
Fixpoint launches (t : list event) : list Launch :=
  match t with
  | [] => []
  | EvLaunch l :: t' => l :: launches t'
  | EvSyncChk :: t' => launches t'
  end.

(** Number of parallel groups a launch asks for. *)
Definition groups (l : Launch) : Z := dim3.volume (l_numBlocks l).

(** Number of workers in each group of a launch. *)
Definition workers (l : Launch) : Z := dim3.volume (l_dimBlocks l).

(** Total number of parallel groups requested by the launches of a trace. *)
Definition groups_launched (t : list event) : Z :=
  foldr (fun l n => groups l + n) 0 (launches t).

(** Every launch of the trace has a checkpoint as the next event. *)
Fixpoint checked_after_launch (t : list event) : bool :=
  match t with
  | [] => true
  | EvLaunch _ :: t' =>
      match t' with
      | EvSyncChk :: _ => checked_after_launch t'
      | _ => false
      end
  | EvSyncChk :: t' => checked_after_launch t'
  end.

(** The launch the function issues for a pending count [c] of [octave] on
    the octave object [o]. *)
Definition igrid_launch (octave c : Z) (o : Octave) : Launch :=
  mkLaunch (ext_desc_igrid octave (tex (getDataTexLinear o)))
           (dim3.mk (to_uint32 c) 1 1) (dim3.mk 16 16 1) 0 (getStream o).

(** The shapes a run of [start_ext_desc_igrid] can have: undefined, the
    no-work return, the return after a clean checkpoint, and the exit at a
    checkpoint that found an error. *)
Inductive run_shape (w : World) (octave : Z) (oct_obj : ref) : outcome bool -> Prop :=
| shape_undefined : run_shape w octave oct_obj Undefined
| shape_no_work c :
    0 <= octave ->
    ori_ct (hct w) !! Z.to_nat octave = Some c ->
    to_uint32 c = 0 ->
    run_shape w octave oct_obj (Done false w [])
| shape_returned c o :
    0 <= octave ->
    ori_ct (hct w) !! Z.to_nat octave = Some c ->
    heap w !! oct_obj = Some o ->
    to_uint32 c <> 0 ->
    checkpoint_error (enqueued w (igrid_launch octave c o)) = hipSuccess ->
    run_shape w octave oct_obj
      (Done true (synchronized w) [EvLaunch (igrid_launch octave c o); EvSyncChk])
| shape_exited c o e :
    0 <= octave ->
    ori_ct (hct w) !! Z.to_nat octave = Some c ->
    heap w !! oct_obj = Some o ->
    to_uint32 c <> 0 ->
    checkpoint_error (enqueued w (igrid_launch octave c o)) = e ->
    e <> hipSuccess ->
    run_shape w octave oct_obj
      (Exited e (synchronized w) [EvLaunch (igrid_launch octave c o); EvSyncChk]).

End Host.

#[global] Arguments World Octave : clear implicits.
#[global] Arguments outcome Octave A : clear implicits.
#[global] Arguments run_shape {Octave _} w octave oct_obj _.


(** ** Concrete inputs *)

(** A device that completes every piece of work. *)
Definition healthy : list Launch -> hipError_t := fun _ => hipSuccess.

(** A device that faults on whatever it runs and reports error 700. *)
Definition faulty : list Launch -> hipError_t :=
  fun q => match q with [] => hipSuccess | _ => 700 end.

(** Two octave objects with their own streams and textures. *)
Definition oct_a : HostOctave := mkHostOctave 640 480 7 (mkLinearTexture 42).
Definition oct_b : HostOctave := mkHostOctave 320 240 9 (mkLinearTexture 43).

(** A pyramid with two octaves at addresses 1 and 2, nothing enqueued and
    no error held; octave 0 has four pending pairs, octave 1 none. *)
Definition demo_world (be : list Launch -> hipError_t) : World HostOctave :=
  mkWorld (mkExtremaCounters [4; 0]) {[ 1%positive := oct_a; 2%positive := oct_b ]}
          [] hipSuccess be.

(** The launch of the four pending pairs of octave 0. *)
Definition demo_launch : Launch :=
  mkLaunch (ext_desc_igrid 0 42) (dim3.mk 4 1 1) (dim3.mk 16 16 1) 0 7.

(** The same pyramid while earlier work is still enqueued, on a device
    that faults. *)
Definition busy_world : World HostOctave :=
  mkWorld (mkExtremaCounters [4; 0]) {[ 1%positive := oct_a; 2%positive := oct_b ]}
          [mkLaunch (ext_desc_igrid 1 43) (dim3.mk 2 1 1) (dim3.mk 16 16 1) 0 9]
          hipSuccess faulty.

(** A table whose entry is not a count. *)
Definition negative_world : World HostOctave :=
  mkWorld (mkExtremaCounters [-1]) {[ 1%positive := oct_a ]} [] hipSuccess healthy.

(** A pyramid whose two octaves both have pending pairs. *)
Definition pyramid_world (be : list Launch -> hipError_t) : World HostOctave :=
  mkWorld (mkExtremaCounters [4; 3]) {[ 1%positive := oct_a; 2%positive := oct_b ]}
          [] hipSuccess be.

(** ** Properties of the dispatch *)

Section Properties.

Context {Octave : Type} `{OctaveAPI Octave}.

Implicit Types (w : World Octave) (octave c : Z) (oct_obj : ref) (o : Octave).

Lemma to_uint32_id c : 0 <= c < 2 ^ 32 -> to_uint32 c = c.
Proof. intros Hc. unfold to_uint32. apply Z.mod_small. exact Hc. Qed.

Lemma to_uint32_range c : 0 <= to_uint32 c < 2 ^ 32.
Proof. unfold to_uint32. apply Z.mod_pos_bound. lia. Qed.

(** The table read, when the index is inside the array. *)
Lemma read_ori_ct_in_bounds w octave c :
  0 <= octave ->
  ori_ct (hct w) !! Z.to_nat octave = Some c ->
  read_ori_ct octave w = Done c w [].
Proof.
  intros Hoct Hc. unfold read_ori_ct.
  destruct (octave <? 0) eqn:E; [apply Z.ltb_lt in E; lia |].
  rewrite Hc. reflexivity.
Qed.

(** A run that is defined has read the table inside its bounds. *)
Lemma read_ori_ct_defined w octave :
  read_ori_ct octave w <> Undefined ->
  0 <= octave /\ exists c, ori_ct (hct w) !! Z.to_nat octave = Some c.
Proof.
  unfold read_ori_ct. destruct (octave <? 0) eqn:E; [congruence |].
  apply Z.ltb_ge in E. intros Hd. split; [exact E |].
  destruct (ori_ct (hct w) !! Z.to_nat octave) as [c |]; [eauto | congruence].
Qed.

(** The no-work path: the count converts to a zero [grid.x]. *)
Lemma start_no_work w octave oct_obj c :
  0 <= octave ->
  ori_ct (hct w) !! Z.to_nat octave = Some c ->
  to_uint32 c = 0 ->
  start_ext_desc_igrid octave oct_obj w = Done false w [].
Proof.
  intros Hoct Hc Hz. unfold start_ext_desc_igrid, mbind, M_bind.
  rewrite (read_ori_ct_in_bounds w octave c Hoct Hc). cbn.
  rewrite Hz. reflexivity.
Qed.

(** The launch path: one launch, then the checkpoint decides. *)
Lemma start_launch w octave oct_obj c o :
  0 <= octave ->
  ori_ct (hct w) !! Z.to_nat octave = Some c ->
  heap w !! oct_obj = Some o ->
  to_uint32 c <> 0 ->
  start_ext_desc_igrid octave oct_obj w =
    let l := igrid_launch octave c o in
    let e := checkpoint_error (enqueued w l) in
    if e =? hipSuccess then Done true (synchronized w) [EvLaunch l; EvSyncChk]
    else Exited e (synchronized w) [EvLaunch l; EvSyncChk].
Proof.
  intros Hoct Hc Ho Hnz. unfold start_ext_desc_igrid, mbind, M_bind.
  rewrite (read_ori_ct_in_bounds w octave c Hoct Hc). cbn.
  destruct (to_uint32 c =? 0) eqn:E; [apply Z.eqb_eq in E; contradiction |].
  unfold Octave_getStream, Octave_getDataTexLinear, hipLaunchKernelGGL, POP_SYNC_CHK.
  rewrite Ho. cbn. rewrite Ho. cbn.
  unfold igrid_launch.
  destruct (checkpoint_error _ =? hipSuccess); reflexivity.
Qed.

(** With a dangling reference the launch path is undefined. *)
Lemma start_dangling w octave oct_obj c :
  0 <= octave ->
  ori_ct (hct w) !! Z.to_nat octave = Some c ->
  heap w !! oct_obj = None ->
  to_uint32 c <> 0 ->
  start_ext_desc_igrid octave oct_obj w = Undefined.
Proof.
  intros Hoct Hc Ho Hnz. unfold start_ext_desc_igrid, mbind, M_bind.
  rewrite (read_ori_ct_in_bounds w octave c Hoct Hc). cbn.
  destruct (to_uint32 c =? 0) eqn:E; [apply Z.eqb_eq in E; contradiction |].
  unfold Octave_getStream. rewrite Ho. reflexivity.
Qed.

Lemma start_run_shape w octave oct_obj :
  run_shape w octave oct_obj (start_ext_desc_igrid octave oct_obj w).
Proof.
  destruct (Z.lt_ge_cases octave 0) as [Hneg | Hoct].
  - replace (start_ext_desc_igrid octave oct_obj w) with (@Undefined Octave bool).
    + constructor.
    + unfold start_ext_desc_igrid, mbind, M_bind, read_ori_ct.
      apply Z.ltb_lt in Hneg. rewrite Hneg. reflexivity.
  - destruct (ori_ct (hct w) !! Z.to_nat octave) as [c |] eqn:Hc.
    + destruct (Z.eq_dec (to_uint32 c) 0) as [Hz | Hnz].
      * rewrite (start_no_work w octave oct_obj c Hoct Hc Hz).
        eapply shape_no_work; eauto.
      * destruct (heap w !! oct_obj) as [o |] eqn:Ho.
        -- rewrite (start_launch w octave oct_obj c o Hoct Hc Ho Hnz). cbv zeta.
           destruct (checkpoint_error _ =? hipSuccess) eqn:E.
           ++ apply Z.eqb_eq in E. eapply shape_returned; eauto.
           ++ apply Z.eqb_neq in E. eapply shape_exited; eauto.
        -- rewrite (start_dangling w octave oct_obj c Hoct Hc Ho Hnz). constructor.
    + replace (start_ext_desc_igrid octave oct_obj w) with (@Undefined Octave bool).
      * constructor.
      * unfold start_ext_desc_igrid, mbind, M_bind, read_ori_ct.
        apply Z.ltb_ge in Hoct. rewrite Hoct, Hc. reflexivity.
Qed.

(** Case analysis on the shape of a run. *)
Ltac run_cases w octave oct_obj :=
  let r := fresh "r" in
  let Hr := fresh "Hr" in
  let Hs := fresh "Hs" in
  pose proof (start_run_shape w octave oct_obj) as Hs;
  remember (start_ext_desc_igrid octave oct_obj w) as r eqn:Hr in *;
  destruct Hs.

(** A launch found in a two-event launch trace is the launch of that trace. *)
Lemma in_launches_single (l l' : Launch) :
  In l (launches [EvLaunch l'; EvSyncChk]) -> l = l'.
Proof. cbn. intros [E | []]. symmetry. exact E. Qed.

(** Every launch of a run is the launch built from the table entry and the
    octave object the reference designates. *)
Lemma launches_of_run w octave oct_obj l :
  In l (launches (trace_of (start_ext_desc_igrid octave oct_obj w))) ->
  exists c o,
    0 <= octave /\
    ori_ct (hct w) !! Z.to_nat octave = Some c /\
    heap w !! oct_obj = Some o /\
    to_uint32 c <> 0 /\
    l = igrid_launch octave c o.
Proof.
  run_cases w octave oct_obj; cbn [trace_of].
  - intros [].
  - intros [].
  - intros Hl. apply in_launches_single in Hl. exists c, o. auto.
  - intros Hl. apply in_launches_single in Hl. exists c, o. auto.
Qed.

(** The world a run leaves differs from the initial one at most in the
    enqueued work and the error state. *)
Lemma final_world_frame w octave oct_obj w' :
  final_world (start_ext_desc_igrid octave oct_obj w) = Some w' ->
  hct w' = hct w /\ heap w' = heap w /\ backend w' = backend w.
Proof.
  run_cases w octave oct_obj; cbn [final_world]; intros Hw;
    try discriminate; injection Hw as <-; cbn; auto.
Qed.

(** C1: for an octave whose table entry is a count [c] (a value of the
    32-bit unsigned range of [grid.x]), the parallel groups requested by a
    call of [start_ext_desc_igrid] number exactly [c]; each launch issued has
    [grid.x * grid.y * grid.z = c]. *)
Theorem launched_groups_eq_ori_ct w octave oct_obj c o :
  0 <= octave ->
  ori_ct (hct w) !! Z.to_nat octave = Some c ->
  heap w !! oct_obj = Some o ->
  0 <= c < 2 ^ 32 ->
  let t := trace_of (start_ext_desc_igrid octave oct_obj w) in
  groups_launched t = c /\
  forall l, In l (launches t) ->
    dim3.x (l_numBlocks l) * dim3.y (l_numBlocks l) * dim3.z (l_numBlocks l) = c.
Proof.
  intros Hoct Hc Ho Hrange. cbv zeta.
  pose proof (to_uint32_id c Hrange) as Hid.
  destruct (Z.eq_dec c 0) as [-> | Hnz].
  - rewrite (start_no_work w octave oct_obj 0 Hoct Hc Hid). cbn.
    split; [reflexivity | intros l []].
  - assert (to_uint32 c <> 0) as Hnz' by (rewrite Hid; exact Hnz).
    rewrite (start_launch w octave oct_obj c o Hoct Hc Ho Hnz'). cbv zeta.
    destruct (checkpoint_error _ =? hipSuccess); cbn [trace_of];
      (split;
       [ unfold groups_launched, groups, dim3.volume; cbn; rewrite Hid; lia
       | intros l Hl; apply in_launches_single in Hl; subst l; cbn; rewrite Hid; lia ]).
Qed.

(** C2: for an octave whose pending count is zero, the call returns [false]
    through the ordinary return, leaves the world as it was, issues no launch
    and no other runtime operation, and does not exit with an error. *)
Theorem zero_count_returns_false w octave oct_obj :
  0 <= octave ->
  ori_ct (hct w) !! Z.to_nat octave = Some 0 ->
  let r := start_ext_desc_igrid octave oct_obj w in
  r = Done false w [] /\
  retval r = Some false /\
  trace_of r = [] /\
  launches (trace_of r) = [] /\
  exit_status r = None /\
  final_world r = Some w.
Proof.
  intros Hoct Hc. cbv zeta.
  rewrite (start_no_work w octave oct_obj 0 Hoct Hc eq_refl).
  cbn. auto 10.
Qed.

(** C3: for an octave whose pending count is strictly positive, the call
    issues exactly one launch, of the kernel [ext_desc_igrid], and never
    returns [false]; when the checkpoint finds no error it returns [true].
    For every run that returns, the value is [true] exactly when a launch was
    issued. *)
Theorem positive_count_launches_once :
  (forall w octave oct_obj c o,
      0 <= octave ->
      ori_ct (hct w) !! Z.to_nat octave = Some c ->
      heap w !! oct_obj = Some o ->
      0 < c < 2 ^ 32 ->
      let r := start_ext_desc_igrid octave oct_obj w in
      (exists l, launches (trace_of r) = [l] /\
                 l_kernel l = ext_desc_igrid octave (tex (getDataTexLinear o))) /\
      retval r <> Some false /\
      (checkpoint_error (enqueued w (igrid_launch octave c o)) = hipSuccess ->
       retval r = Some true)) /\
  (forall w octave oct_obj b,
      retval (start_ext_desc_igrid octave oct_obj w) = Some b ->
      (b = true <-> launches (trace_of (start_ext_desc_igrid octave oct_obj w)) <> [])).
Proof.
  split.
  - intros w octave oct_obj c o Hoct Hc Ho Hrange. cbv zeta.
    assert (to_uint32 c <> 0) as Hnz by (rewrite to_uint32_id; lia).
    rewrite (start_launch w octave oct_obj c o Hoct Hc Ho Hnz). cbv zeta.
    destruct (checkpoint_error _ =? hipSuccess) eqn:E; cbn.
    + split; [eauto | split; [discriminate | reflexivity]].
    + apply Z.eqb_neq in E.
      split; [eauto | split; [discriminate | intros Hok; contradiction]].
  - intros w octave oct_obj b.
    run_cases w octave oct_obj; cbn; intros Hb; try discriminate;
      injection Hb as <-; split; intros Hx; try discriminate; try reflexivity.
    contradiction.
Qed.

(** C4: every launch a call issues carries the stream handle of the octave
    object the reference designates. *)
Theorem launch_on_octave_stream w octave oct_obj o :
  heap w !! oct_obj = Some o ->
  forall l, In l (launches (trace_of (start_ext_desc_igrid octave oct_obj w))) ->
    l_stream l = getStream o.
Proof.
  intros Ho l Hl.
  destruct (launches_of_run w octave oct_obj l Hl) as (c & o' & _ & _ & Ho' & _ & ->).
  rewrite Ho in Ho'. injection Ho' as <-. reflexivity.
Qed.

(** Every launch of a run uses the block built by the three assignments. *)
Lemma block_of_run w octave oct_obj l :
  In l (launches (trace_of (start_ext_desc_igrid octave oct_obj w))) ->
  l_dimBlocks l = dim3.mk 16 16 IGRID_NUMLINES.
Proof.
  intros Hl.
  destruct (launches_of_run w octave oct_obj l Hl) as (c & o & _ & _ & _ & _ & ->).
  reflexivity.
Qed.

(** C5: in every run each launch is directly followed by the checkpoint, the
    checkpoint is the last operation before the return, and a run whose
    checkpoint finds an error for the work enqueued up to the launch exits
    with that error instead of returning; a run that returns had a clean
    checkpoint. *)
Theorem checkpoint_follows_launch w octave oct_obj :
  let r := start_ext_desc_igrid octave oct_obj w in
  checked_after_launch (trace_of r) = true /\
  (forall l, In l (launches (trace_of r)) ->
     trace_of r = [EvLaunch l; EvSyncChk] /\
     (checkpoint_error (enqueued w l) <> hipSuccess ->
      retval r = None /\ exit_status r = Some (checkpoint_error (enqueued w l))) /\
     (forall b, retval r = Some b -> checkpoint_error (enqueued w l) = hipSuccess)).
Proof.
  cbv zeta. run_cases w octave oct_obj; cbn [trace_of retval exit_status].
  - split; [reflexivity | intros l []].
  - split; [reflexivity | intros l []].
  - split; [reflexivity |].
    intros l Hl. apply in_launches_single in Hl. subst l.
    split; [reflexivity | split].
    + intros Hbad. contradiction.
    + intros b _. assumption.
  - split; [reflexivity |].
    intros l Hl. apply in_launches_single in Hl. subst l.
    split; [reflexivity | split].
    + intros _. subst e. split; reflexivity.
    + intros b Hb. discriminate.
Qed.

(** C6, as the code has it: the tile shape does not depend on any input of
    the call.  Every launch uses the block (16, 16, IGRID_NUMLINES), where
    the first two extents are literals and the third is the macro; any two
    launches of any two calls have the same block. *)
Theorem tile_shape_fixed :
  (forall w octave oct_obj l,
      In l (launches (trace_of (start_ext_desc_igrid octave oct_obj w))) ->
      dim3.x (l_dimBlocks l) = 16 /\
      dim3.y (l_dimBlocks l) = 16 /\
      dim3.z (l_dimBlocks l) = IGRID_NUMLINES) /\
  (forall w1 w2 octave1 octave2 oct_obj1 oct_obj2 l1 l2,
      In l1 (launches (trace_of (start_ext_desc_igrid octave1 oct_obj1 w1))) ->
      In l2 (launches (trace_of (start_ext_desc_igrid octave2 oct_obj2 w2))) ->
      l_dimBlocks l1 = l_dimBlocks l2).
Proof.
  split.
  - intros w octave oct_obj l Hl.
    rewrite (block_of_run w octave oct_obj l Hl). cbn. auto.
  - intros w1 w2 octave1 octave2 oct_obj1 oct_obj2 l1 l2 H1 H2.
    rewrite (block_of_run _ _ _ _ H1), (block_of_run _ _ _ _ H2). reflexivity.
Qed.

(** C7: two runs on the same octave index, the same pending count and the
    same octave object, from worlds that may differ in everything else
    (enqueued work, error state, device behaviour), issue the same launches:
    same grid, block, stream and kernel arguments.  They are defined
    together and, when both return, return the same boolean.  In
    particular a second run from the world the first one left issues the
    launches of the first. *)
Theorem two_runs_agree (w1 w2 : World Octave) octave oct_obj :
  ori_ct (hct w1) !! Z.to_nat octave = ori_ct (hct w2) !! Z.to_nat octave ->
  heap w1 !! oct_obj = heap w2 !! oct_obj ->
  let r1 := start_ext_desc_igrid octave oct_obj w1 in
  let r2 := start_ext_desc_igrid octave oct_obj w2 in
  launches (trace_of r1) = launches (trace_of r2) /\
  trace_of r1 = trace_of r2 /\
  (forall b1 b2, retval r1 = Some b1 -> retval r2 = Some b2 -> b1 = b2) /\
  (r1 = Undefined <-> r2 = Undefined) /\
  (forall w1', final_world r1 = Some w1' ->
     launches (trace_of (start_ext_desc_igrid octave oct_obj w1')) =
     launches (trace_of r1)).
Proof.
  intros Hct Hobj. cbv zeta.
  assert (forall wa wb : World Octave,
             ori_ct (hct wa) !! Z.to_nat octave = ori_ct (hct wb) !! Z.to_nat octave ->
             heap wa !! oct_obj = heap wb !! oct_obj ->
             trace_of (start_ext_desc_igrid octave oct_obj wa) =
               trace_of (start_ext_desc_igrid octave oct_obj wb) /\
             (forall b1 b2,
                 retval (start_ext_desc_igrid octave oct_obj wa) = Some b1 ->
                 retval (start_ext_desc_igrid octave oct_obj wb) = Some b2 -> b1 = b2) /\
             (start_ext_desc_igrid octave oct_obj wa = Undefined ->
              start_ext_desc_igrid octave oct_obj wb = Undefined)) as Hgen.
  { intros wa wb Ha Hb.
    destruct (Z.lt_ge_cases octave 0) as [Hneg | Hoct].
    { assert (forall w, start_ext_desc_igrid octave oct_obj w = Undefined) as Hu.
      { intros w. unfold start_ext_desc_igrid, mbind, M_bind, read_ori_ct.
        apply Z.ltb_lt in Hneg. rewrite Hneg. reflexivity. }
      rewrite !Hu. cbn. split; [reflexivity | split; [discriminate | auto]]. }
    destruct (ori_ct (hct wa) !! Z.to_nat octave) as [c |] eqn:Hc.
    - symmetry in Ha.
      destruct (Z.eq_dec (to_uint32 c) 0) as [Hz | Hnz].
      + rewrite (start_no_work wa octave oct_obj c Hoct Hc Hz),
                (start_no_work wb octave oct_obj c Hoct Ha Hz).
        cbn. split; [reflexivity | split; [congruence | discriminate]].
      + destruct (heap wa !! oct_obj) as [o |] eqn:Ho.
        * symmetry in Hb.
          rewrite (start_launch wa octave oct_obj c o Hoct Hc Ho Hnz),
                  (start_launch wb octave oct_obj c o Hoct Ha Hb Hnz).
          cbv zeta.
          destruct (checkpoint_error (enqueued wa _) =? hipSuccess);
            destruct (checkpoint_error (enqueued wb _) =? hipSuccess);
            cbn; (split; [reflexivity | split; [congruence | discriminate]]).
        * symmetry in Hb.
          rewrite (start_dangling wa octave oct_obj c Hoct Hc Ho Hnz),
                  (start_dangling wb octave oct_obj c Hoct Ha Hb Hnz).
          cbn. split; [reflexivity | split; [discriminate | auto]].
    - assert (forall w, ori_ct (hct w) !! Z.to_nat octave = None ->
                        start_ext_desc_igrid octave oct_obj w = Undefined) as Hu.
      { intros w Hw. unfold start_ext_desc_igrid, mbind, M_bind, read_ori_ct.
        apply Z.ltb_ge in Hoct. rewrite Hoct, Hw. reflexivity. }
      symmetry in Ha. rewrite (Hu wa Hc), (Hu wb Ha).
      cbn. split; [reflexivity | split; [discriminate | auto]]. }
  destruct (Hgen w1 w2 Hct Hobj) as (Ht & Hret & Hu12).
  destruct (Hgen w2 w1 (eq_sym Hct) (eq_sym Hobj)) as (_ & _ & Hu21).
  split; [rewrite Ht; reflexivity |].
  split; [exact Ht |].
  split; [exact Hret |].
  split; [split; assumption |].
  intros w1' Hw1'.
  destruct (final_world_frame w1 octave oct_obj w1' Hw1') as (Hh & Hp & _).
  destruct (Hgen w1' w1) as (Ht' & _); [rewrite Hh | rewrite Hp |]; try reflexivity.
  rewrite Ht'. reflexivity.
Qed.

(** C8: every launch has [grid.y = 1] and [grid.z = 1], so its number of
    groups is [grid.x]; when the table entry [c] is a count, the group
    indices of the launch are exactly the triples (i, 0, 0) with
    [0 <= i < c]. *)
Theorem grid_one_dimensional w octave oct_obj l :
  In l (launches (trace_of (start_ext_desc_igrid octave oct_obj w))) ->
  dim3.y (l_numBlocks l) = 1 /\
  dim3.z (l_numBlocks l) = 1 /\
  groups l = dim3.x (l_numBlocks l) /\
  (forall c, ori_ct (hct w) !! Z.to_nat octave = Some c -> 0 <= c < 2 ^ 32 ->
     dim3.x (l_numBlocks l) = c /\
     forall i j k, dim3.contains (l_numBlocks l) i j k <-> 0 <= i < c /\ j = 0 /\ k = 0).
Proof.
  intros Hl.
  destruct (launches_of_run w octave oct_obj l Hl) as (c & o & _ & Hc & _ & _ & ->).
  split; [reflexivity |]. split; [reflexivity |]. split.
  - unfold groups, dim3.volume. cbn. lia.
  - intros c' Hc' Hrange. rewrite Hc in Hc'. injection Hc' as <-.
    unfold dim3.contains. cbn. rewrite (to_uint32_id c Hrange).
    split; [reflexivity |]. intros i j k. lia.
Qed.

(** C9: every launch uses the block (16, 16, 1), 256 workers per group, with
    [IGRID_NUMLINES = 1]; this is neither of the shapes (16, 4, 4) and
    (32, 4, 4) named in the comment on the kernel declaration. *)
Theorem block_is_16_16_1 w octave oct_obj l :
  In l (launches (trace_of (start_ext_desc_igrid octave oct_obj w))) ->
  l_dimBlocks l = dim3.mk 16 16 1 /\
  IGRID_NUMLINES = 1 /\
  workers l = 256 /\
  l_dimBlocks l <> dim3.mk 16 4 4 /\
  l_dimBlocks l <> dim3.mk 32 4 4.
Proof.
  intros Hl. rewrite (block_of_run w octave oct_obj l Hl).
  unfold workers. rewrite (block_of_run w octave oct_obj l Hl).
  repeat split; discriminate.
Qed.

(** C10: on every path that is defined (no work, return after the launch,
    exit at the checkpoint) the counter table and the store of octave
    objects, hence the object behind the reference, are the ones the call
    started from. *)
Theorem inputs_unchanged w octave oct_obj w' :
  final_world (start_ext_desc_igrid octave oct_obj w) = Some w' ->
  hct w' = hct w /\
  ori_ct (hct w') = ori_ct (hct w) /\
  heap w' = heap w /\
  heap w' !! oct_obj = heap w !! oct_obj.
Proof.
  intros Hw. destruct (final_world_frame w octave oct_obj w' Hw) as (Hh & Hp & _).
  rewrite Hh, Hp. auto.
Qed.

(** ** Further properties of [start_ext_desc_igrid] *)

Lemma launches_app (t1 t2 : list event) :
  launches (t1 ++ t2) = launches t1 ++ launches t2.
Proof.
  induction t1 as [| [l |] t1 IH]; cbn; [reflexivity | f_equal; exact IH | exact IH].
Qed.

Lemma groups_launched_app (t1 t2 : list event) :
  groups_launched (t1 ++ t2) = groups_launched t1 + groups_launched t2.
Proof.
  unfold groups_launched. rewrite launches_app.
  induction (launches t1) as [| l ls IH]; cbn; [reflexivity | rewrite IH; lia].
Qed.

(** The launches of a run, from the table entry and the octave object. *)
Lemma launches_of_start w octave oct_obj c o :
  0 <= octave ->
  ori_ct (hct w) !! Z.to_nat octave = Some c ->
  heap w !! oct_obj = Some o ->
  launches (trace_of (start_ext_desc_igrid octave oct_obj w)) =
    if to_uint32 c =? 0 then [] else [igrid_launch octave c o].
Proof.
  intros Hoct Hc Ho.
  destruct (to_uint32 c =? 0) eqn:E.
  - apply Z.eqb_eq in E. rewrite (start_no_work w octave oct_obj c Hoct Hc E). reflexivity.
  - apply Z.eqb_neq in E. rewrite (start_launch w octave oct_obj c o Hoct Hc Ho E).
    cbv zeta. destruct (checkpoint_error _ =? hipSuccess); reflexivity.
Qed.

(** The groups a run requests, for any integer entry. *)
Lemma groups_of_start w octave oct_obj c o :
  0 <= octave ->
  ori_ct (hct w) !! Z.to_nat octave = Some c ->
  heap w !! oct_obj = Some o ->
  groups_launched (trace_of (start_ext_desc_igrid octave oct_obj w)) = c mod 2 ^ 32.
Proof.
  intros Hoct Hc Ho.
  unfold groups_launched. rewrite (launches_of_start w octave oct_obj c o Hoct Hc Ho).
  fold (to_uint32 c).
  destruct (to_uint32 c =? 0) eqn:E.
  - apply Z.eqb_eq in E. rewrite E. reflexivity.
  - unfold groups, dim3.volume. cbn. lia.
Qed.

(** The assignment [grid.x = hct.ori_ct[octave]] converts the entry to 32
    bits before the test [grid.x == 0]: whatever integer the entry is, the
    groups requested number the entry modulo 2^32, at most one launch is
    issued, and a run that returns gives [false] exactly when the entry is a
    multiple of 2^32. *)
Theorem groups_are_entry_mod_2_32 w octave oct_obj c o :
  0 <= octave ->
  ori_ct (hct w) !! Z.to_nat octave = Some c ->
  heap w !! oct_obj = Some o ->
  groups_launched (trace_of (start_ext_desc_igrid octave oct_obj w)) = c mod 2 ^ 32 /\
  (length (launches (trace_of (start_ext_desc_igrid octave oct_obj w))) <= 1)%nat /\
  (forall b, retval (start_ext_desc_igrid octave oct_obj w) = Some b ->
     (b = false <-> c mod 2 ^ 32 = 0)).
Proof.
  intros Hoct Hc Ho.
  unfold groups_launched. rewrite (launches_of_start w octave oct_obj c o Hoct Hc Ho).
  fold (to_uint32 c).
  destruct (Z.eq_dec (to_uint32 c) 0) as [Hz | Hnz].
  - rewrite (start_no_work w octave oct_obj c Hoct Hc Hz).
    rewrite Hz. cbn. split; [reflexivity | split; [lia |]].
    intros b Hb. injection Hb as <-. split; reflexivity.
  - rewrite (start_launch w octave oct_obj c o Hoct Hc Ho Hnz). cbv zeta.
    destruct (to_uint32 c =? 0) eqn:E; [apply Z.eqb_eq in E; contradiction |].
    split; [unfold groups, dim3.volume; cbn; lia | split; [cbn; lia |]].
    intros b Hb.
    destruct (checkpoint_error _ =? hipSuccess); cbn in Hb; [| discriminate].
    injection Hb as <-. split; [discriminate | contradiction].
Qed.

(** Every launch passes to the kernel the octave index the call received and
    the [tex] member of the linear texture of the octave object, asks for no
    dynamic shared memory, and has as [grid.x] the converted table entry of
    that same octave. *)
Theorem launch_arguments w octave oct_obj o l :
  heap w !! oct_obj = Some o ->
  In l (launches (trace_of (start_ext_desc_igrid octave oct_obj w))) ->
  l_kernel l = ext_desc_igrid octave (tex (getDataTexLinear o)) /\
  l_sharedMemBytes l = 0 /\
  exists c, ori_ct (hct w) !! Z.to_nat octave = Some c /\
            dim3.x (l_numBlocks l) = c mod 2 ^ 32.
Proof.
  intros Ho Hl.
  destruct (launches_of_run w octave oct_obj l Hl) as (c & o' & _ & Hc & Ho' & _ & ->).
  rewrite Ho in Ho'. injection Ho' as <-.
  split; [reflexivity | split; [reflexivity |]].
  exists c. split; [exact Hc | reflexivity].
Qed.

(** The guard [if( grid.x == 0 ) return false] keeps empty launches away
    from the runtime: every launch has all six extents at least 1, each a
    32-bit value, so at least one group and one worker. *)
Theorem launch_never_empty w octave oct_obj l :
  In l (launches (trace_of (start_ext_desc_igrid octave oct_obj w))) ->
  1 <= dim3.x (l_numBlocks l) < 2 ^ 32 /\
  1 <= groups l /\
  1 <= workers l /\
  groups l * workers l = 256 * dim3.x (l_numBlocks l).
Proof.
  intros Hl.
  destruct (launches_of_run w octave oct_obj l Hl) as (c & o & _ & _ & _ & Hnz & ->).
  pose proof (to_uint32_range c) as Hr.
  unfold groups, workers, dim3.volume. cbn. lia.
Qed.

(** The function does not check [octave] against the extent of the table:
    a run is defined exactly when the index lies inside the table and,
    unless the converted entry is zero, the reference designates an object.
    On the no-work path the octave object is never accessed. *)
Theorem defined_iff_in_bounds w octave oct_obj :
  start_ext_desc_igrid octave oct_obj w <> Undefined <->
  exists c,
    0 <= octave < Z.of_nat (length (ori_ct (hct w))) /\
    ori_ct (hct w) !! Z.to_nat octave = Some c /\
    (to_uint32 c = 0 \/ is_Some (heap w !! oct_obj)).
Proof.
  split.
  - run_cases w octave oct_obj; intros Hd.
    + contradiction.
    + exists c. split; [| split; [assumption | left; assumption]].
      pose proof (lookup_lt_Some (ori_ct (hct w)) (Z.to_nat octave) c ltac:(assumption)). lia.
    + exists c. split; [| split; [assumption | right; eauto]].
      pose proof (lookup_lt_Some (ori_ct (hct w)) (Z.to_nat octave) c ltac:(assumption)). lia.
    + exists c. split; [| split; [assumption | right; eauto]].
      pose proof (lookup_lt_Some (ori_ct (hct w)) (Z.to_nat octave) c ltac:(assumption)). lia.
  - intros (c & [Hoct _] & Hc & [Hz | [o Ho]]).
    + rewrite (start_no_work w octave oct_obj c Hoct Hc Hz). discriminate.
    + destruct (Z.eq_dec (to_uint32 c) 0) as [Hz | Hnz].
      * rewrite (start_no_work w octave oct_obj c Hoct Hc Hz). discriminate.
      * rewrite (start_launch w octave oct_obj c o Hoct Hc Ho Hnz). cbv zeta.
        destruct (checkpoint_error _ =? hipSuccess); discriminate.
Qed.

(** Two calls in sequence, for octaves [a] and [b].  The first call leaves
    the table and the objects as they were, so when it returns the second
    issues what it would have issued alone: the launches of the sequence
    are those of the two calls, in order, and the groups add up.  When the
    first call exits at its checkpoint, nothing of the second is issued. *)
Theorem two_calls_compose w a b ra rb ca cb oa ob :
  0 <= a -> 0 <= b ->
  ori_ct (hct w) !! Z.to_nat a = Some ca ->
  ori_ct (hct w) !! Z.to_nat b = Some cb ->
  heap w !! ra = Some oa ->
  heap w !! rb = Some ob ->
  let first := start_ext_desc_igrid a ra w in
  let both :=
    M_bind bool bool (fun _ => start_ext_desc_igrid b rb) (start_ext_desc_igrid a ra) w in
  (forall r, retval first = Some r ->
     launches (trace_of both) =
       launches (trace_of first) ++ launches (trace_of (start_ext_desc_igrid b rb w)) /\
     groups_launched (trace_of both) = ca mod 2 ^ 32 + cb mod 2 ^ 32) /\
  (forall e, exit_status first = Some e ->
     exit_status both = Some e /\ trace_of both = trace_of first).
Proof.
  intros Ha Hb Hca Hcb Hoa Hob. cbv zeta.
  pose proof (launches_of_start w b rb cb ob Hb Hcb Hob) as Hsecond.
  pose proof (groups_of_start w a ra ca oa Ha Hca Hoa) as Hga.
  unfold M_bind.
  pose proof (final_world_frame w a ra) as Hframe.
  destruct (start_ext_desc_igrid a ra w) as [r1 w1 t1 | e1 w1 t1 |] eqn:Hfirst; cbn.
  - split; [| intros e He; discriminate].
    intros r _.
    destruct (Hframe w1 eq_refl) as (Hh & Hp & _).
    assert (launches (trace_of (start_ext_desc_igrid b rb w1)) =
            launches (trace_of (start_ext_desc_igrid b rb w))) as Hsame.
    { rewrite Hsecond.
      apply (launches_of_start w1 b rb cb ob Hb); [rewrite Hh | rewrite Hp]; assumption. }
    pose proof (groups_of_start w1 b rb cb ob Hb
                  ltac:(rewrite Hh; assumption) ltac:(rewrite Hp; assumption)) as Hgb.
    cbn [trace_of] in Hga.
    destruct (start_ext_desc_igrid b rb w1) as [r2 w2 t2 | e2 w2 t2 |] eqn:Hsnd;
      cbn [trace_of] in *.
    + rewrite launches_app, groups_launched_app, Hsame. split; [reflexivity | lia].
    + rewrite launches_app, groups_launched_app, Hsame. split; [reflexivity | lia].
    + exfalso.
      assert (start_ext_desc_igrid b rb w1 <> Undefined) as Hdef.
      { destruct (Z.eq_dec (to_uint32 cb) 0) as [Hz | Hnz].
        - rewrite (start_no_work w1 b rb cb Hb ltac:(rewrite Hh; assumption) Hz).
          discriminate.
        - rewrite (start_launch w1 b rb cb ob Hb ltac:(rewrite Hh; assumption)
                     ltac:(rewrite Hp; assumption) Hnz).
          cbv zeta. destruct (checkpoint_error _ =? hipSuccess); discriminate. }
      contradiction.
  - split; [intros r Hr; discriminate |].
    intros e He. injection He as <-. split; reflexivity.
  - split; [intros r Hr; discriminate | intros e He; discriminate].
Qed.

End Properties.

(** ** The model on concrete inputs *)

(** Four pending pairs: one launch of four groups on stream 7, then the
    checkpoint, and the call returns [true]. *)
Example run_four_pairs :
  start_ext_desc_igrid 0 1%positive (demo_world healthy) =
  Done true (demo_world healthy) [EvLaunch demo_launch; EvSyncChk].
Proof. reflexivity. Qed.

(** No pending pair: the call returns [false] and does nothing. *)
Example run_no_pairs :
  start_ext_desc_igrid 1 2%positive (demo_world healthy) =
  Done false (demo_world healthy) [].
Proof. reflexivity. Qed.

(** A faulting device: the run ends at the checkpoint with the error. *)
Example run_faulty :
  start_ext_desc_igrid 0 1%positive (demo_world faulty) =
  Exited 700 (demo_world faulty) [EvLaunch demo_launch; EvSyncChk].
Proof. reflexivity. Qed.

(** An index outside the table is undefined behaviour. *)
Example run_out_of_bounds :
  start_ext_desc_igrid 2 1%positive (demo_world healthy) = Undefined
  /\ start_ext_desc_igrid (-1) 1%positive (demo_world healthy) = Undefined.
Proof. split; reflexivity. Qed.

(** An entry of -1 becomes a [grid.x] of 2^32 - 1 on the assignment. *)
Example run_negative_entry :
  groups_launched (trace_of (start_ext_desc_igrid 0 1%positive negative_world))
  = 4294967295.
Proof. reflexivity. Qed.

Lemma launched_groups_eq_ori_ct_witness :
  ori_ct (hct (demo_world healthy)) !! Z.to_nat 0 = Some 4 /\
  groups_launched (trace_of (start_ext_desc_igrid 0 1%positive (demo_world healthy))) = 4.
Proof.
  split; [reflexivity |].
  refine (proj1 (launched_groups_eq_ori_ct (demo_world healthy) 0 1%positive 4 oct_a _ _ _ _));
    [lia | reflexivity | reflexivity | lia].
Defined.

Lemma zero_count_returns_false_witness :
  ori_ct (hct (demo_world healthy)) !! Z.to_nat 1 = Some 0 /\
  start_ext_desc_igrid 1 2%positive (demo_world healthy) = Done false (demo_world healthy) [].
Proof.
  split; [reflexivity |].
  refine (proj1 (zero_count_returns_false (demo_world healthy) 1 2%positive _ _));
    [lia | reflexivity].
Defined.

Lemma positive_count_launches_once_witness :
  retval (start_ext_desc_igrid 0 1%positive (demo_world healthy)) = Some true /\
  (true = true <->
   launches (trace_of (start_ext_desc_igrid 0 1%positive (demo_world healthy))) <> []).
Proof.
  split.
  - refine (proj2 (proj2 (proj1 (@positive_count_launches_once HostOctave _)
               (demo_world healthy) 0 1%positive 4 oct_a _ _ _ _)) _);
      [lia | reflexivity | reflexivity | lia | reflexivity].
  - refine (proj2 (@positive_count_launches_once HostOctave _)
               (demo_world healthy) 0 1%positive true _).
    reflexivity.
Defined.

Lemma launch_on_octave_stream_witness :
  In demo_launch (launches (trace_of (start_ext_desc_igrid 0 1%positive (demo_world healthy)))) /\
  l_stream demo_launch = 7.
Proof.
  split; [left; reflexivity |].
  refine (launch_on_octave_stream (demo_world healthy) 0 1%positive oct_a _ demo_launch _);
    [reflexivity | left; reflexivity].
Defined.

Lemma checkpoint_follows_launch_witness :
  checkpoint_error (enqueued (demo_world faulty) demo_launch) <> hipSuccess /\
  retval (start_ext_desc_igrid 0 1%positive (demo_world faulty)) = None /\
  exit_status (start_ext_desc_igrid 0 1%positive (demo_world faulty)) = Some 700.
Proof.
  split; [discriminate |].
  refine (proj1 (proj2 (proj2 (checkpoint_follows_launch (demo_world faulty) 0 1%positive)
                          demo_launch _)) _);
    [left; reflexivity | discriminate].
Defined.

(** C6, as stated, fails: no two calls, whatever their worlds, octave
    indices and octave objects, issue launches with different blocks, so no
    input of the call selects the tile shape. *)
Lemma tile_shape_not_selectable :
  ~ (exists (w1 w2 : World HostOctave) (octave1 octave2 : Z) (oct_obj1 oct_obj2 : ref)
            (l1 l2 : Launch),
        In l1 (launches (trace_of (start_ext_desc_igrid octave1 oct_obj1 w1))) /\
        In l2 (launches (trace_of (start_ext_desc_igrid octave2 oct_obj2 w2))) /\
        l_dimBlocks l1 <> l_dimBlocks l2).
Proof.
  intros (w1 & w2 & octave1 & octave2 & oct_obj1 & oct_obj2 & l1 & l2 & H1 & H2 & Hne).
  apply Hne.
  rewrite (block_of_run _ _ _ _ H1), (block_of_run _ _ _ _ H2). reflexivity.
Qed.

Lemma tile_shape_fixed_witness :
  l_dimBlocks demo_launch = dim3.mk 16 16 IGRID_NUMLINES /\
  l_dimBlocks demo_launch = l_dimBlocks (igrid_launch 0 4 oct_b).
Proof.
  split.
  - destruct (proj1 (@tile_shape_fixed HostOctave _) (demo_world healthy) 0 1%positive demo_launch)
      as (Hx & Hy & Hz); [left; reflexivity |].
    reflexivity.
  - apply (proj2 (@tile_shape_fixed HostOctave _)
             (demo_world healthy) busy_world 0 0 1%positive 2%positive);
      left; reflexivity.
Defined.

Lemma two_runs_agree_witness :
  retval (start_ext_desc_igrid 0 1%positive (demo_world healthy)) = Some true /\
  exit_status (start_ext_desc_igrid 0 1%positive busy_world) = Some 700 /\
  launches (trace_of (start_ext_desc_igrid 0 1%positive (demo_world healthy))) =
  launches (trace_of (start_ext_desc_igrid 0 1%positive busy_world)).
Proof.
  split; [reflexivity |]. split; [reflexivity |].
  refine (proj1 (two_runs_agree (demo_world healthy) busy_world 0 1%positive _ _));
    reflexivity.
Defined.

Lemma grid_one_dimensional_witness :
  dim3.y (l_numBlocks demo_launch) = 1 /\
  dim3.z (l_numBlocks demo_launch) = 1 /\
  groups demo_launch = dim3.x (l_numBlocks demo_launch) /\
  (forall c, ori_ct (hct (demo_world healthy)) !! Z.to_nat 0 = Some c -> 0 <= c < 2 ^ 32 ->
     dim3.x (l_numBlocks demo_launch) = c /\
     forall i j k, dim3.contains (l_numBlocks demo_launch) i j k <->
                   0 <= i < c /\ j = 0 /\ k = 0).
Proof.
  apply (grid_one_dimensional (demo_world healthy) 0 1%positive demo_launch).
  left; reflexivity.
Defined.

Lemma block_is_16_16_1_witness :
  l_dimBlocks demo_launch = dim3.mk 16 16 1 /\ workers demo_launch = 256.
Proof.
  destruct (block_is_16_16_1 (demo_world healthy) 0 1%positive demo_launch)
    as (Hb & _ & Hw & _); [left; reflexivity |].
  split; assumption.
Defined.

Lemma inputs_unchanged_witness :
  final_world (start_ext_desc_igrid 0 1%positive busy_world)
    = Some (synchronized busy_world) /\
  hct (synchronized busy_world) = hct busy_world /\
  heap (synchronized busy_world) = heap busy_world.
Proof.
  split; [reflexivity |].
  destruct (inputs_unchanged busy_world 0 1%positive (synchronized busy_world))
    as (Hh & _ & Hp & _); [reflexivity |].
  split; assumption.
Defined.

Lemma groups_are_entry_mod_2_32_witness :
  ori_ct (hct negative_world) !! Z.to_nat 0 = Some (-1) /\
  groups_launched (trace_of (start_ext_desc_igrid 0 1%positive negative_world))
  = (-1) mod 2 ^ 32.
Proof.
  split; [reflexivity |].
  refine (proj1 (groups_are_entry_mod_2_32 negative_world 0 1%positive (-1) oct_a _ _ _));
    [lia | reflexivity | reflexivity].
Defined.

Lemma launch_arguments_witness :
  In demo_launch (launches (trace_of (start_ext_desc_igrid 0 1%positive (demo_world healthy)))) /\
  l_kernel demo_launch = ext_desc_igrid 0 42 /\
  l_sharedMemBytes demo_launch = 0.
Proof.
  split; [left; reflexivity |].
  destruct (launch_arguments (demo_world healthy) 0 1%positive oct_a demo_launch)
    as (Hk & Hs & _); [reflexivity | left; reflexivity |].
  split; [exact Hk | exact Hs].
Defined.

Lemma launch_never_empty_witness :
  1 <= dim3.x (l_numBlocks demo_launch) < 2 ^ 32 /\
  groups demo_launch * workers demo_launch = 256 * 4.
Proof.
  destruct (launch_never_empty (demo_world healthy) 0 1%positive demo_launch)
    as (Hx & _ & _ & Ht); [left; reflexivity |].
  split; [exact Hx | exact Ht].
Defined.

Lemma defined_iff_in_bounds_witness :
  start_ext_desc_igrid 1 3%positive (demo_world healthy) <> Undefined /\
  ~ (exists c,
        0 <= 2 < Z.of_nat (length (ori_ct (hct (demo_world healthy)))) /\
        ori_ct (hct (demo_world healthy)) !! Z.to_nat 2 = Some c /\
        (to_uint32 c = 0 \/ is_Some (heap (demo_world healthy) !! 1%positive))).
Proof.
  split.
  - refine (proj2 (defined_iff_in_bounds (demo_world healthy) 1 3%positive) _).
    exists 0. split; [cbn; lia | split; [reflexivity | left; reflexivity]].
  - intros Hex.
    refine (proj2 (defined_iff_in_bounds (demo_world healthy) 2 1%positive) Hex _).
    reflexivity.
Defined.

Lemma two_calls_compose_witness :
  retval (start_ext_desc_igrid 0 1%positive (pyramid_world healthy)) = Some true /\
  groups_launched
    (trace_of (M_bind bool bool (fun _ => start_ext_desc_igrid 1 2%positive)
                 (start_ext_desc_igrid 0 1%positive) (pyramid_world healthy)))
  = 4 mod 2 ^ 32 + 3 mod 2 ^ 32.
Proof.
  split; [reflexivity |].
  refine (proj2 (proj1 (two_calls_compose (pyramid_world healthy) 0 1 1%positive 2%positive
                          4 3 oct_a oct_b _ _ _ _ _ _) true _));
    [lia | lia | reflexivity | reflexivity | reflexivity | reflexivity | reflexivity].
Defined.
